(** * Haswell platform clocks (src/platform/haswell/clk.c)

    A shallow embedding of the clock controller of the Haswell platform:
    the frequency tables, the selector [get_freq], the transition
    [clock_set_freq], the accessors and [init_platform_clocks], followed by
    the properties of the specification that concern them.

    Integers are [Z] with the wrap-around of the C type written out; the
    [clk] array behind the global pointer [clk_pdata] is a list read and
    written by index; calls into collaborators (spinlock, notifier, register
    update) are recorded, in order, in a trace carried by the state. *)

From Stdlib Require Import ZArith Lia List Bool.
From stdpp Require Import base option list.
Import ListNotations.

Local Open Scope Z_scope.

(** ** Machine integers *)

Definition to_u32 (x : Z) : Z := x mod 2 ^ 32.
Definition to_u64 (x : Z) : Z := x mod 2 ^ 64.

(** [ULONG_LONG_MAX] of <limits.h>. *)
Definition ULONG_LONG_MAX : Z := 2 ^ 64 - 1.

Definition is_u64 (x : Z) : Prop := 0 <= x < 2 ^ 64.

(** ** Data model *)

Definition NUM_CLOCKS : nat := 2.

(** Modelled from the spec: the clock identifiers of <platform/clk.h>, a
    header that clk.c includes.  The data model enumerates the domains as
    (CPU, SSP), and [clk] has [NUM_CLOCKS = 2] slots that
    [init_platform_clocks] fills through these two identifiers. *)
Definition CLK_CPU : Z := 0.
Definition CLK_SSP : Z := 1.

(** [struct clk_data]; the [lock] member belongs to the spinlock primitive
    and shows up as [spinlock_init], [spin_lock_irq] and [spin_unlock_irq]
    events instead of as a field. *)
Module clk_data.
Record t : Type := mk { freq : Z; ticks_per_usec : Z }.
End clk_data.

(** [struct freq_table]. *)
Module freq_table.
Record t : Type := mk { freq : Z; ticks_per_usec : Z; fabric : Z; enc : Z }.
End freq_table.

(** [struct clock_notify_data], the payload handed to the notifier. *)
Module clock_notify_data.
Record t : Type := mk { old_freq : Z; old_ticks_per_usec : Z; freq : Z }.
End clock_notify_data.

Inductive notifier_id : Type := NOTIFIER_ID_CPU_FREQ.
Inductive clock_notify : Type := CLOCK_NOTIFY_PRE | CLOCK_NOTIFY_POST.

(** Calls into the collaborators, as they appear in the source. *)
Inductive event : Type :=
  | spinlock_init (clock : Z)
  | spin_lock_irq (clock : Z)
  | spin_unlock_irq (clock : Z)
  | notifier_event (id : notifier_id) (phase : clock_notify)
      (data : clock_notify_data.t)
  | io_reg_update_bits (reg mask value : Z).

Definition is_notification (e : event) : bool :=
  match e with notifier_event _ _ _ => true | _ => false end.

Definition is_reg_write (e : event) : bool :=
  match e with io_reg_update_bits _ _ _ => true | _ => false end.

(** The global [clk_pdata] pointer ([None] is NULL, its value before
    [init_platform_clocks]) and the calls made so far, oldest first. *)
Record state : Type := mk_state {
  clk_pdata : option (list clk_data.t);
  trace : list event
}.

(** ** Frequency tables *)

(* increasing frequency order *)
Definition cpu_freq : list freq_table.t := [
  freq_table.mk 32000000 80 32000000 6;
  freq_table.mk 80000000 80 80000000 2;
  freq_table.mk 160000000 160 80000000 1;
  freq_table.mk 320000000 320 160000000 4; (* default *)
  freq_table.mk 320000000 320 80000000 0;
  freq_table.mk 160000000 160 160000000 5
].

Definition ssp_freq : list freq_table.t := [
  freq_table.mk 24000000 24 0 0 (* default *)
].

Definition CPU_DEFAULT_IDX : Z := 3.
Definition SSP_DEFAULT_IDX : Z := 0.

Definition ARRAY_SIZE {A : Type} (a : list A) : Z := Z.of_nat (length a).

(** ** A state monad with failure

    A computation reads and updates the [state] and may have no defined
    result ([None]): an access through the NULL [clk_pdata], an array index
    outside the array, a division by zero. *)

Definition M (A : Type) : Type := state -> option (A * state).

Definition ret {A : Type} (a : A) : M A := fun s => Some (a, s).

Definition bind {A B : Type} (c : M A) (k : A -> M B) : M B :=
  fun s => match c s with
           | Some (a, s') => k a s'
           | None => None
           end.

Notation "x <- c ;; k" := (bind c (fun x => k))
  (at level 100, c at next level, right associativity).
Notation "c ;;; k" := (bind c (fun _ => k))
  (at level 100, right associativity).

(** [a[i]] for a C array held as a list; out of range has no result. *)
Definition index {A : Type} (a : list A) (i : Z) : option A :=
  if i <? 0 then None else a !! Z.to_nat i.

Definition emit (e : event) : M unit :=
  fun s => Some (tt, mk_state (clk_pdata s) (trace s ++ [e])).

(** Read of [clk_pdata->clk[clock]]. *)
Definition clk_load (clock : Z) : M clk_data.t :=
  fun s => match clk_pdata s with
           | Some clk => match index clk clock with
                         | Some c => Some (c, s)
                         | None => None
                         end
           | None => None
           end.

(** Write of a member of [clk_pdata->clk[clock]]. *)
Definition clk_store (clock : Z) (f : clk_data.t -> clk_data.t) : M unit :=
  fun s => match clk_pdata s with
           | Some clk => match index clk clock with
                         | Some _ =>
                             Some (tt, mk_state
                                         (Some (alter f (Z.to_nat clock) clk))
                                         (trace s))
                         | None => None
                         end
           | None => None
           end.

(** Read of [table[i]] of a frequency table. *)
Definition table_load (table : list freq_table.t) (i : Z) : M freq_table.t :=
  fun s => match index table i with
           | Some e => Some (e, s)
           | None => None
           end.

(** ** The frequency selector *)

(** The loop of [get_freq] from index [i] on, over the entries not yet
    visited: [Some] of the first index whose entry satisfies
    [hz <= table[i].freq], [None] when the loop runs to the end. *)
Fixpoint get_freq_scan (table : list freq_table.t) (i : Z) (hz : Z)
  : option Z :=
  match table with
  | [] => None
  | e :: rest =>
      if hz <=? freq_table.freq e then Some i
      else get_freq_scan rest (i + 1) hz
  end.

(** [get_freq(table, size, hz)]; the pair (table, size) of the source is the
    list and its length. *)
Definition get_freq (table : list freq_table.t) (hz : Z) : Z :=
  let size := ARRAY_SIZE table in
  match get_freq_scan table 0 hz with
  | Some i => i                      (* lowest frequency that is >= hz *)
  | None => to_u32 (size - 1)        (* not found, so return max frequency *)
  end.

(** ** Ordering of a table *)

(** Each entry is at most its successor, by [freq]. *)
Fixpoint ascending (table : list freq_table.t) : bool :=
  match table with
  | a :: rest =>
      match rest with
      | b :: _ => (freq_table.freq a <=? freq_table.freq b) && ascending rest
      | [] => true
      end
  | [] => true
  end.

(** [m] is the frequency of an entry of the table and no entry exceeds it. *)
Definition table_max (table : list freq_table.t) (m : Z) : Prop :=
  (exists e, In e table /\ freq_table.freq e = m) /\
  Forall (fun e => freq_table.freq e <= m) table.

(** [m] is the frequency of an entry that is [>= hz], and no entry that is
    [>= hz] has a smaller frequency. *)
Definition least_at_least (table : list freq_table.t) (hz m : Z) : Prop :=
  (exists e, In e table /\ freq_table.freq e = m) /\ hz <= m /\
  Forall (fun e => hz <= freq_table.freq e -> m <= freq_table.freq e) table.

Section Platform.

(** The SHIM register layout of <platform/shim.h>: the address of the clock
    control register, the mask of its clock-select field and the macro that
    places an encoding in that field.  Nothing below depends on their
    values. *)
Variables (SHIM_BASE SHIM_CSR SHIM_CSR_DCS_MASK : Z).
Variable SHIM_CSR_DCS : Z -> Z.

(** ** Operations *)

Definition clock_enable (clock : Z) : M unit := ret tt.

Definition clock_disable (clock : Z) : M unit := ret tt.

Definition clock_set_freq (clock : Z) (hz : Z) : M Z :=
  c <- clk_load clock ;;
  let old_freq := clk_data.freq c in
  let old_ticks_per_usec := clk_data.ticks_per_usec c in
  (* atomic context for chaining clocks *)
  emit (spin_lock_irq clock) ;;;
  (if clock =? CLK_CPU then
     (* get nearest frequency that is >= requested Hz *)
     let idx := get_freq cpu_freq hz in
     e <- table_load cpu_freq idx ;;
     let notify_data :=
       clock_notify_data.mk old_freq old_ticks_per_usec (freq_table.freq e) in
     (* tell anyone interested we are about to change CPU freq *)
     emit (notifier_event NOTIFIER_ID_CPU_FREQ CLOCK_NOTIFY_PRE notify_data) ;;;
     (* set CPU frequency request for CCU *)
     emit (io_reg_update_bits (SHIM_BASE + SHIM_CSR) SHIM_CSR_DCS_MASK
             (SHIM_CSR_DCS (freq_table.enc e))) ;;;
     (* tell anyone interested we have now changed CPU freq *)
     emit (notifier_event NOTIFIER_ID_CPU_FREQ CLOCK_NOTIFY_POST notify_data)
   else
     (* CLK_SSP and default *)
     ret tt) ;;;
  emit (spin_unlock_irq clock) ;;;
  c' <- clk_load clock ;;
  ret (clk_data.freq c').

(** The calls one [clock_set_freq(CLK_CPU, hz)] makes, in order, given the
    stored slot [c] and the selected table entry [e]. *)
Definition cpu_calls (c : clk_data.t) (e : freq_table.t) : list event :=
  let notify_data :=
    clock_notify_data.mk (clk_data.freq c) (clk_data.ticks_per_usec c)
      (freq_table.freq e) in
  [ spin_lock_irq CLK_CPU;
    notifier_event NOTIFIER_ID_CPU_FREQ CLOCK_NOTIFY_PRE notify_data;
    io_reg_update_bits (SHIM_BASE + SHIM_CSR) SHIM_CSR_DCS_MASK
      (SHIM_CSR_DCS (freq_table.enc e));
    notifier_event NOTIFIER_ID_CPU_FREQ CLOCK_NOTIFY_POST notify_data;
    spin_unlock_irq CLK_CPU ].

Definition clock_get_freq (clock : Z) : M Z :=
  c <- clk_load clock ;;
  ret (clk_data.freq c).

Definition clock_us_to_ticks (clock : Z) (us : Z) : M Z :=
  c <- clk_load clock ;;
  ret (to_u64 (clk_data.ticks_per_usec c * us)).

Definition init_platform_clocks : M unit :=
  (* rzalloc: zeroed storage for the clk array *)
  (fun s => Some (tt, mk_state
                        (Some (replicate NUM_CLOCKS (clk_data.mk 0 0)))
                        (trace s))) ;;;
  emit (spinlock_init 0) ;;;
  emit (spinlock_init 1) ;;;
  (* set defaults *)
  e <- table_load cpu_freq CPU_DEFAULT_IDX ;;
  clk_store CLK_CPU
    (fun c => clk_data.mk (freq_table.freq e) (clk_data.ticks_per_usec c)) ;;;
  e <- table_load cpu_freq CPU_DEFAULT_IDX ;;
  clk_store CLK_CPU
    (fun c => clk_data.mk (clk_data.freq c) (freq_table.ticks_per_usec e)) ;;;
  e <- table_load ssp_freq SSP_DEFAULT_IDX ;;
  clk_store CLK_SSP
    (fun c => clk_data.mk (freq_table.freq e) (clk_data.ticks_per_usec c)) ;;;
  e <- table_load ssp_freq SSP_DEFAULT_IDX ;;
  clk_store CLK_SSP
    (fun c => clk_data.mk (clk_data.freq c) (freq_table.ticks_per_usec e)).

(** The values the two timer reads return at the time of a call:
    [arch_timer_get_system(NULL)] and [platform_timer_get(platform_timer)]. *)
Record timers : Type := mk_timers {
  arch_timer_get_system : Z;
  platform_timer_get : Z
}.

(** [clock_time_elapsed(clock, previous, &current)].  [current] is the
    content of the output cell before the call; the result pairs the content
    of the cell after the call with the returned value, [None] when the
    division that computes it is not defined. *)
Definition clock_time_elapsed (tm : timers) (clock : Z) (previous : Z)
    (current : Z) (s : state) : Z * option Z :=
  let finish (_current : Z) : Z * option Z :=
    (* *current = _current; *)
    (_current,
     match clk_load clock s with
     | Some (c, _) =>
         let ticks := clk_data.ticks_per_usec c in
         if ticks =? 0 then None
         else if _current >=? previous then
           Some (to_u64 (_current - previous) ÷ ticks)
         else
           Some (to_u64 (_current + to_u64 (ULONG_LONG_MAX - previous)) ÷ ticks)
     | None => None
     end) in
  if clock =? CLK_CPU then finish (arch_timer_get_system tm)
  else if clock =? CLK_SSP then finish (platform_timer_get tm)
  else (current, Some 0).

End Platform.

(** ** Predicates on states and runs *)

(** Both clock slots exist: [clk_pdata] points to a [clk] array of
    [NUM_CLOCKS] entries. *)
Definition clocks_ready (s : state) : Prop :=
  exists clk, clk_pdata s = Some clk /\ length clk = NUM_CLOCKS.

Definition is_clock (clock : Z) : Prop := clock = CLK_CPU \/ clock = CLK_SSP.

(** The state [init_platform_clocks] builds from a cold start. *)
Definition booted : state :=
  mk_state (Some [clk_data.mk 320000000 320; clk_data.mk 24000000 24])
           [spinlock_init 0; spinlock_init 1].

(** A run that changed nothing and called neither the notifier nor the
    register update: it has a result, [clk_pdata] is as before, and the
    calls it added to the trace are of other kinds. *)
Definition silent_no_op (r : option (Z * state)) (s : state) : Prop :=
  exists v evs,
    r = Some (v, mk_state (clk_pdata s) (trace s ++ evs)) /\
    forallb (fun e => negb (is_reg_write e || is_notification e)) evs = true.

(** ** Sequences of calls *)

(** The state at power-on: [clk_pdata] is NULL and nothing has been called. *)
Definition cold : state := mk_state None [].

(** A call of one of the functions clk.c exports. *)
Inductive api_call : Type :=
  | call_init_platform_clocks
  | call_clock_enable (clock : Z)
  | call_clock_disable (clock : Z)
  | call_clock_set_freq (clock hz : Z)
  | call_clock_get_freq (clock : Z)
  | call_clock_us_to_ticks (clock us : Z).

(** Whether a trace respects the locking discipline, given the lock held at
    its start: locks are taken only when none is held, released only by the
    clock that holds one, the notifier and the register update are called
    only while the lock of CLK_CPU is held, [spinlock_init] only while no
    lock is held, and no lock is held at the end. *)
Fixpoint well_locked (held : option Z) (evs : list event) : bool :=
  match evs with
  | [] => match held with None => true | Some _ => false end
  | spin_lock_irq c :: rest =>
      match held with None => well_locked (Some c) rest | Some _ => false end
  | spin_unlock_irq c :: rest =>
      match held with
      | Some c' => (c' =? c) && well_locked None rest
      | None => false
      end
  | spinlock_init _ :: rest =>
      match held with None => well_locked None rest | Some _ => false end
  | notifier_event _ _ _ :: rest | io_reg_update_bits _ _ _ :: rest =>
      match held with
      | Some c => (c =? CLK_CPU) && well_locked held rest
      | None => false
      end
  end.

(** The two facts every call of the interface preserves: the stored clock
    state is absent or at its defaults, and the trace respects the locking
    discipline. *)
Definition steady (s : state) : Prop :=
  (clk_pdata s = None \/ clk_pdata s = clk_pdata booted) /\
  well_locked None (trace s) = true.

Section Interface.

Variables (SHIM_BASE SHIM_CSR SHIM_CSR_DCS_MASK : Z).
Variable SHIM_CSR_DCS : Z -> Z.

(** The state a call leaves behind, when the call has a defined result. *)
Definition run_call (c : api_call) (s : state) : option state :=
  match c with
  | call_init_platform_clocks => snd <$> init_platform_clocks s
  | call_clock_enable clock => snd <$> clock_enable clock s
  | call_clock_disable clock => snd <$> clock_disable clock s
  | call_clock_set_freq clock hz =>
      snd <$> clock_set_freq SHIM_BASE SHIM_CSR SHIM_CSR_DCS_MASK SHIM_CSR_DCS
                clock hz s
  | call_clock_get_freq clock => snd <$> clock_get_freq clock s
  | call_clock_us_to_ticks clock us => snd <$> clock_us_to_ticks clock us s
  end.

(** The calls of a list, one after the other, each of them defined. *)
Fixpoint run_calls (cs : list api_call) (s : state) : option state :=
  match cs with
  | [] => Some s
  | c :: rest =>
      match run_call c s with
      | Some s' => run_calls rest s'
      | None => None
      end
  end.

End Interface.

(** * Properties *)

(** ** The selector on an arbitrary table *)

Lemma get_freq_scan_bounds (table : list freq_table.t) (i hz j : Z) :
  get_freq_scan table i hz = Some j -> i <= j < i + ARRAY_SIZE table.
Proof.
  unfold ARRAY_SIZE. revert i.
  induction table as [|e rest IH]; intros i H; simpl in H.
  - discriminate.
  - destruct (hz <=? freq_table.freq e).
    + injection H as <-. simpl length. lia.
    + apply IH in H. simpl length. lia.
Qed.

(** A hit of the scan is the first entry, in index order, that is [>= hz]. *)
Lemma get_freq_scan_first (table : list freq_table.t) (i hz j : Z) :
  get_freq_scan table i hz = Some j ->
  exists e, table !! Z.to_nat (j - i) = Some e /\ hz <= freq_table.freq e /\
    Forall (fun e' => freq_table.freq e' < hz) (take (Z.to_nat (j - i)) table).
Proof.
  revert i. induction table as [|e rest IH]; intros i H; simpl in H.
  - discriminate.
  - destruct (Z.leb_spec hz (freq_table.freq e)) as [Hle|Hgt].
    + injection H as <-. exists e. replace (i - i) with 0 by lia.
      simpl. auto.
    + pose proof (get_freq_scan_bounds _ _ _ _ H) as Hb.
      destruct (IH _ H) as (e' & Hl & Hh & Hall).
      exists e'. replace (Z.to_nat (j - i)) with (S (Z.to_nat (j - (i + 1)))) by lia.
      simpl. repeat split; auto.
Qed.

(** The scan misses exactly when every entry is below [hz]. *)
Lemma get_freq_scan_none (table : list freq_table.t) (i hz : Z) :
  get_freq_scan table i hz = None <->
  Forall (fun e => freq_table.freq e < hz) table.
Proof.
  revert i. induction table as [|e rest IH]; intros i; simpl.
  - split; auto.
  - destruct (Z.leb_spec hz (freq_table.freq e)) as [Hle|Hgt].
    + split; [discriminate|]. intros H. inversion H; subst. lia.
    + rewrite IH. split.
      * intros H. constructor; assumption.
      * intros H. inversion H; assumption.
Qed.

(** On a non-empty table the selector returns an index of the table. *)
Lemma get_freq_in_table (table : list freq_table.t) (hz : Z) :
  table <> [] -> ARRAY_SIZE table <= 2 ^ 32 ->
  exists e, index table (get_freq table hz) = Some e.
Proof.
  intros Hne Hsz. unfold get_freq, index.
  assert (0 < ARRAY_SIZE table) as Hpos.
  { unfold ARRAY_SIZE. destruct table; [congruence | simpl length; lia]. }
  assert (forall j, 0 <= j < ARRAY_SIZE table ->
            exists e, (if j <? 0 then None else table !! Z.to_nat j) = Some e)
    as Hin.
  { intros j Hj. destruct (Z.ltb_spec j 0); [lia|].
    apply lookup_lt_is_Some_2. unfold ARRAY_SIZE in Hj. lia. }
  destruct (get_freq_scan table 0 hz) as [j|] eqn:Hscan.
  - apply Hin. apply get_freq_scan_bounds in Hscan. lia.
  - apply Hin. unfold to_u32. rewrite Z.mod_small; lia.
Qed.

(** ** The selector on an ascending table *)

Lemma ascending_tail (a : freq_table.t) (rest : list freq_table.t) :
  ascending (a :: rest) = true -> ascending rest = true.
Proof.
  simpl. destruct rest as [|b rest']; [reflexivity|].
  intros H. apply andb_true_iff in H. apply H.
Qed.

Lemma ascending_head_least (a : freq_table.t) (rest : list freq_table.t) :
  ascending (a :: rest) = true ->
  Forall (fun b => freq_table.freq a <= freq_table.freq b) rest.
Proof.
  revert a. induction rest as [|b rest' IH]; intros a H.
  - constructor.
  - pose proof (ascending_tail _ _ H) as Ht.
    simpl in H. apply andb_true_iff in H. destruct H as [Hab _].
    apply Z.leb_le in Hab.
    constructor; [assumption|].
    eapply Forall_impl; [apply (IH b Ht)|].
    simpl. intros c Hc. lia.
Qed.

Lemma ascending_last_greatest (table : list freq_table.t) (e : freq_table.t) :
  ascending table = true -> last table = Some e ->
  Forall (fun e' => freq_table.freq e' <= freq_table.freq e) table.
Proof.
  induction table as [|a rest IH]; intros Hasc Hlast.
  - constructor.
  - pose proof (ascending_head_least _ _ Hasc) as Hhead.
    destruct rest as [|b rest'].
    + simpl in Hlast. injection Hlast as <-. constructor; [lia | constructor].
    + assert (last (b :: rest') = Some e) as Hl by exact Hlast.
      constructor.
      * assert (In e (b :: rest')) as Hin.
        { apply list_elem_of_In. apply list_elem_of_lookup.
          rewrite last_lookup in Hl. eauto. }
        rewrite Forall_forall in Hhead. apply Hhead.
        apply list_elem_of_In. assumption.
      * apply IH; [exact (ascending_tail _ _ Hasc) | exact Hl].
Qed.

Lemma get_freq_scan_least (table : list freq_table.t) (i hz j : Z) :
  ascending table = true ->
  get_freq_scan table i hz = Some j ->
  exists e, table !! Z.to_nat (j - i) = Some e /\
            least_at_least table hz (freq_table.freq e).
Proof.
  revert i. induction table as [|a rest IH]; intros i Hasc H; simpl in H.
  - discriminate.
  - destruct (Z.leb_spec hz (freq_table.freq a)) as [Hle|Hgt].
    + injection H as <-. exists a. replace (i - i) with 0 by lia.
      split; [reflexivity|]. split; [|split].
      * exists a. split; [left; reflexivity | reflexivity].
      * assumption.
      * constructor; [lia|].
        eapply Forall_impl; [apply (ascending_head_least _ _ Hasc)|].
        simpl. intros b Hb _. exact Hb.
    + pose proof (get_freq_scan_bounds _ _ _ _ H) as Hb.
      destruct (IH _ (ascending_tail _ _ Hasc) H) as (e & Hl & (e0 & Hin & He0) & Hhz & Hall).
      exists e. replace (Z.to_nat (j - i)) with (S (Z.to_nat (j - (i + 1)))) by lia.
      split; [exact Hl|]. split; [|split].
      * exists e0. split; [right; assumption | assumption].
      * assumption.
      * constructor; [lia | assumption].
Qed.

(** X2. On a non-empty table in ascending order the selector does what its
    comments say: it returns the index of an entry whose frequency is the
    smallest one [>= hz], and when no entry is [>= hz] it returns the last
    index, which then holds the greatest frequency of the table. *)
Lemma get_freq_ascending (table : list freq_table.t) (hz : Z) :
  table <> [] -> ARRAY_SIZE table <= 2 ^ 32 -> ascending table = true ->
  exists e, index table (get_freq table hz) = Some e /\
    (Exists (fun e' => hz <= freq_table.freq e') table ->
       least_at_least table hz (freq_table.freq e)) /\
    (Forall (fun e' => freq_table.freq e' < hz) table ->
       get_freq table hz = ARRAY_SIZE table - 1 /\
       table_max table (freq_table.freq e)).
Proof.
  intros Hne Hsz Hasc.
  destruct (get_freq_in_table table hz Hne Hsz) as [e He].
  exists e. split; [exact He|].
  assert (0 < ARRAY_SIZE table) as Hpos.
  { unfold ARRAY_SIZE. destruct table; [congruence | simpl length; lia]. }
  unfold get_freq, index in *.
  destruct (get_freq_scan table 0 hz) as [j|] eqn:Hscan.
  - split.
    + intros _. destruct (get_freq_scan_least _ _ _ _ Hasc Hscan) as (e' & Hl & Hleast).
      apply get_freq_scan_bounds in Hscan.
      destruct (Z.ltb_spec j 0); [lia|].
      replace (j - 0) with j in Hl by lia.
      rewrite Hl in He. injection He as <-. exact Hleast.
    + intros Hall. apply get_freq_scan_none with (i := 0) in Hall. congruence.
  - assert (to_u32 (ARRAY_SIZE table - 1) = ARRAY_SIZE table - 1) as Hu.
    { unfold to_u32. apply Z.mod_small. lia. }
    rewrite Hu in *. split.
    + intros Hex. apply get_freq_scan_none in Hscan.
      apply Exists_exists in Hex. destruct Hex as (x & Hx & Hhz).
      rewrite Forall_forall in Hscan. specialize (Hscan x Hx). simpl in Hscan. lia.
    + intros _. split; [reflexivity|].
      destruct (Z.ltb_spec (ARRAY_SIZE table - 1) 0); [lia|].
      assert (last table = Some e) as Hlast.
      { rewrite last_lookup. rewrite <- He. f_equal. unfold ARRAY_SIZE. lia. }
      split.
      * exists e. split; [|reflexivity].
        apply list_elem_of_In. apply list_elem_of_lookup. eauto.
      * apply ascending_last_greatest; assumption.
Qed.

(** ** The tables of the platform *)

Lemma cpu_freq_not_empty : cpu_freq <> [] /\ ARRAY_SIZE cpu_freq <= 2 ^ 32.
Proof. split; [discriminate | vm_compute; discriminate]. Qed.

(** C2. Both tables are non-empty and [ssp_freq] is ascending, but [cpu_freq]
    is not in ascending order of [freq], against the comment above it: the
    entry at index 4 has 320000000 Hz and the one after it, at index 5, has
    160000000 Hz. *)
Theorem cpu_freq_not_ascending :
  cpu_freq <> [] /\ ssp_freq <> [] /\ ascending ssp_freq = true /\
  ascending cpu_freq = false /\
  freq_table.freq <$> index cpu_freq 4 = Some 320000000 /\
  freq_table.freq <$> index cpu_freq 5 = Some 160000000.
Proof. repeat split; try discriminate; reflexivity. Qed.

(** C3. On the CPU table a request above every entry makes the selector
    return the last index, 5, whose entry (160000000 Hz) is neither the
    highest frequency of the table (320000000 Hz, at index 3) nor [>= hz];
    and no entry qualifies for that request. *)
Theorem get_freq_cpu_above_max :
  get_freq cpu_freq 320000001 = 5 /\
  get_freq cpu_freq 320000001 = ARRAY_SIZE cpu_freq - 1 /\
  Forall (fun e => freq_table.freq e < 320000001) cpu_freq /\
  freq_table.freq <$> index cpu_freq 5 = Some 160000000 /\
  table_max cpu_freq 320000000 /\
  ~ table_max cpu_freq 160000000.
Proof.
  split; [reflexivity|]. split; [reflexivity|]. split.
  { repeat constructor. }
  split; [reflexivity|]. split.
  - split.
    + exists (freq_table.mk 320000000 320 160000000 4).
      split; [simpl; auto | reflexivity].
    + repeat constructor; discriminate.
  - intros [_ Hall].
    pose proof (proj1 (List.Forall_forall _ _) Hall
                  (freq_table.mk 320000000 320 160000000 4)) as H.
    simpl in H. specialize (H ltac:(auto 10)). lia.
Qed.

(** The spec's example: a request of 100000000 Hz selects index 2, the first
    160000000 Hz entry, not the later duplicate at index 5. *)
Example get_freq_cpu_100MHz :
  get_freq cpu_freq 100000000 = 2 /\
  freq_table.freq <$> index cpu_freq 2 = Some 160000000.
Proof. split; reflexivity. Qed.

(** ** The set-frequency transition *)

Lemma clocks_ready_load (s : state) (clock : Z) :
  clocks_ready s -> is_clock clock ->
  exists clk c, clk_pdata s = Some clk /\ index clk clock = Some c.
Proof.
  intros (clk & Hp & Hlen) Hc. exists clk.
  destruct clk as [|c0 [|c1 [|c2 rest]]]; try discriminate.
  destruct Hc as [-> | ->]; [exists c0 | exists c1]; split; auto.
Qed.

Section Transition.

Variables (SHIM_BASE SHIM_CSR SHIM_CSR_DCS_MASK : Z).
Variable SHIM_CSR_DCS : Z -> Z.

Local Abbreviation set_freq :=
  (clock_set_freq SHIM_BASE SHIM_CSR SHIM_CSR_DCS_MASK SHIM_CSR_DCS).
Local Abbreviation cpu_calls :=
  (cpu_calls SHIM_BASE SHIM_CSR SHIM_CSR_DCS_MASK SHIM_CSR_DCS).

Lemma set_freq_cpu_run (hz : Z) (s : state) (clk : list clk_data.t)
    (c : clk_data.t) :
  clk_pdata s = Some clk -> index clk CLK_CPU = Some c ->
  exists e, index cpu_freq (get_freq cpu_freq hz) = Some e /\
    set_freq CLK_CPU hz s =
      Some (clk_data.freq c, mk_state (Some clk) (trace s ++ cpu_calls c e)).
Proof.
  intros Hp Hc.
  destruct cpu_freq_not_empty as [Hne Hsz].
  destruct (get_freq_in_table cpu_freq hz Hne Hsz) as [e He].
  exists e. split; [exact He|].
  unfold clock_set_freq, bind, clk_load, table_load, emit, ret.
  rewrite Hp, Hc. cbn [clk_pdata trace]. rewrite Z.eqb_refl, He.
  cbn [clk_pdata trace]. rewrite Hp, Hc.
  unfold cpu_calls. repeat rewrite <- app_assoc. reflexivity.
Qed.

Lemma set_freq_other_run (clock hz : Z) (s : state) (clk : list clk_data.t)
    (c : clk_data.t) :
  clock <> CLK_CPU ->
  clk_pdata s = Some clk -> index clk clock = Some c ->
  set_freq clock hz s =
    Some (clk_data.freq c,
          mk_state (Some clk)
            (trace s ++ [spin_lock_irq clock; spin_unlock_irq clock])).
Proof.
  intros Hne Hp Hc.
  unfold clock_set_freq, bind, clk_load, emit, ret.
  rewrite Hp, Hc. cbn [clk_pdata trace].
  destruct (Z.eqb_spec clock CLK_CPU) as [|_]; [contradiction|].
  cbn [clk_pdata trace]. rewrite Hp, Hc.
  repeat rewrite <- app_assoc. reflexivity.
Qed.

(** Whatever the domain, the run leaves [clk_pdata] as it was and returns
    the stored frequency. *)
Lemma set_freq_run (clock hz : Z) (s : state) :
  clocks_ready s -> is_clock clock ->
  exists clk c evs,
    clk_pdata s = Some clk /\ index clk clock = Some c /\
    set_freq clock hz s =
      Some (clk_data.freq c, mk_state (Some clk) (trace s ++ evs)) /\
    (clock = CLK_CPU ->
       exists e, index cpu_freq (get_freq cpu_freq hz) = Some e /\
                 evs = cpu_calls c e).
Proof.
  intros Hr Hc.
  destruct (clocks_ready_load s clock Hr Hc) as (clk & c & Hp & Hl).
  exists clk, c.
  destruct (Z.eq_dec clock CLK_CPU) as [->|Hne].
  - destruct (set_freq_cpu_run hz s clk c Hp Hl) as (e & He & Hrun).
    exists (cpu_calls c e). repeat split; auto. intros _. exists e. auto.
  - exists [spin_lock_irq clock; spin_unlock_irq clock].
    repeat split; auto.
    + apply set_freq_other_run; assumption.
    + contradiction.
Qed.

Lemma init_platform_clocks_run (s : state) :
  init_platform_clocks s =
    Some (tt, mk_state (clk_pdata booted) (trace s ++ trace booted)).
Proof.
  unfold init_platform_clocks, bind, emit, table_load, clk_store. simpl.
  rewrite <- app_assoc. reflexivity.
Qed.

(** [booted] is what initialisation yields when nothing has run before. *)
Lemma init_cold_start :
  init_platform_clocks (mk_state None []) = Some (tt, booted).
Proof. reflexivity. Qed.

(** After initialisation the CPU transition returns the default frequency
    whatever the request. *)
Lemma set_freq_cpu_after_init (hz : Z) :
  fst <$> set_freq CLK_CPU hz booted = Some 320000000.
Proof.
  destruct (set_freq_cpu_run hz booted _ _ eq_refl eq_refl) as (e & _ & ->).
  reflexivity.
Qed.

Lemma booted_ready (evs : list event) :
  clocks_ready (mk_state (clk_pdata booted) evs).
Proof. eexists. split; reflexivity. Qed.

(** C5. From any state, [init_platform_clocks] completes, and afterwards
    [clock_get_freq] returns the frequency of the default entry of each
    table: 320000000 for CLK_CPU (index 3 of [cpu_freq]) and 24000000 for
    CLK_SSP (index 0 of [ssp_freq]). *)
Theorem init_then_get_freq (s : state) :
  exists s',
    init_platform_clocks s = Some (tt, s') /\
    clock_get_freq CLK_CPU s' = Some (320000000, s') /\
    clock_get_freq CLK_SSP s' = Some (24000000, s') /\
    freq_table.freq <$> index cpu_freq CPU_DEFAULT_IDX = Some 320000000 /\
    freq_table.freq <$> index ssp_freq SSP_DEFAULT_IDX = Some 24000000.
Proof.
  eexists. split; [apply init_platform_clocks_run|].
  repeat split; reflexivity.
Qed.

(** C1. After initialisation, [clock_set_freq(CLK_CPU, 32000000)] returns
    the stored 320000000, although the smallest entry of [cpu_freq] that is
    [>= 32000000] is 32000000 (the entry the selector picks, index 0): the
    transition never stores the selected frequency. *)
Theorem set_freq_cpu_returns_stored (s : state) :
  exists s0 s1,
    init_platform_clocks s = Some (tt, s0) /\
    set_freq CLK_CPU 32000000 s0 = Some (320000000, s1) /\
    get_freq cpu_freq 32000000 = 0 /\
    freq_table.freq <$> index cpu_freq 0 = Some 32000000 /\
    least_at_least cpu_freq 32000000 32000000 /\
    ~ least_at_least cpu_freq 32000000 320000000.
Proof.
  destruct (set_freq_cpu_run 32000000
              (mk_state (clk_pdata booted) (trace s ++ trace booted))
              _ _ eq_refl eq_refl) as (e & He & Hrun).
  eexists. eexists. split; [apply init_platform_clocks_run|].
  split; [exact Hrun|]. split; [reflexivity|]. split; [reflexivity|]. split.
  - split; [|split].
    + exists (freq_table.mk 32000000 80 32000000 6). split; [left|]; reflexivity.
    + lia.
    + repeat constructor; simpl; lia.
  - intros (_ & _ & Hall).
    pose proof (proj1 (List.Forall_forall _ _) Hall
                  (freq_table.mk 32000000 80 32000000 6)) as H.
    simpl in H. specialize (H ltac:(auto)). lia.
Qed.

(** C4. A run of [clock_set_freq(CLK_CPU, hz)] makes exactly these calls, in
    this order: the lock, the pre-change notification, the register update
    with the encoding of the selected entry, the post-change notification,
    the unlock.  Both notifications carry the same payload: the stored
    frequency, the stored ticks per microsecond, and the frequency of the
    entry the selector picked. *)
Theorem set_freq_cpu_notifies_around_write (hz : Z) (s : state)
    (clk : list clk_data.t) (c : clk_data.t) :
  clk_pdata s = Some clk -> index clk CLK_CPU = Some c ->
  exists e v s',
    index cpu_freq (get_freq cpu_freq hz) = Some e /\
    set_freq CLK_CPU hz s = Some (v, s') /\
    let payload :=
      clock_notify_data.mk (clk_data.freq c) (clk_data.ticks_per_usec c)
        (freq_table.freq e) in
    trace s' = trace s ++
      [ spin_lock_irq CLK_CPU;
        notifier_event NOTIFIER_ID_CPU_FREQ CLOCK_NOTIFY_PRE payload;
        io_reg_update_bits (SHIM_BASE + SHIM_CSR) SHIM_CSR_DCS_MASK
          (SHIM_CSR_DCS (freq_table.enc e));
        notifier_event NOTIFIER_ID_CPU_FREQ CLOCK_NOTIFY_POST payload;
        spin_unlock_irq CLK_CPU ].
Proof.
  intros Hp Hc.
  destruct (set_freq_cpu_run hz s clk c Hp Hc) as (e & He & Hrun).
  exists e. eexists. eexists. split; [exact He|]. split; [exact Hrun|].
  reflexivity.
Qed.

(** C7. Two calls of [clock_set_freq(clock, hz)] in a row both complete and
    return the same value; for CLK_CPU each of them adds its own sequence of
    calls, with one pre-change and one post-change notification, to the
    trace. *)
Theorem set_freq_twice (clock hz : Z) (s : state) :
  clocks_ready s -> is_clock clock ->
  exists v s1 s2,
    set_freq clock hz s = Some (v, s1) /\
    set_freq clock hz s1 = Some (v, s2) /\
    (clock = CLK_CPU ->
       exists c e,
         trace s1 = trace s ++ cpu_calls c e /\
         trace s2 = trace s1 ++ cpu_calls c e /\
         filter (fun ev => is_notification ev = true) (cpu_calls c e) =
           [ notifier_event NOTIFIER_ID_CPU_FREQ CLOCK_NOTIFY_PRE
               (clock_notify_data.mk (clk_data.freq c)
                  (clk_data.ticks_per_usec c) (freq_table.freq e));
             notifier_event NOTIFIER_ID_CPU_FREQ CLOCK_NOTIFY_POST
               (clock_notify_data.mk (clk_data.freq c)
                  (clk_data.ticks_per_usec c) (freq_table.freq e)) ]).
Proof.
  intros Hr Hc.
  destruct (set_freq_run clock hz s Hr Hc)
    as (clk & c & evs & Hp & Hl & Hrun & Hcpu).
  assert (clocks_ready (mk_state (Some clk) (trace s ++ evs))) as Hr1.
  { destruct Hr as (clk' & Hp' & Hlen). exists clk. split; [reflexivity|].
    congruence. }
  destruct (set_freq_run clock hz _ Hr1 Hc)
    as (clk1 & c1 & evs1 & Hp1 & Hl1 & Hrun1 & Hcpu1).
  simpl in Hp1. injection Hp1 as <-.
  assert (c1 = c) as -> by congruence.
  eexists. eexists. eexists.
  split; [exact Hrun|]. split; [exact Hrun1|].
  intros Heq. destruct (Hcpu Heq) as (e & He & ->).
  destruct (Hcpu1 Heq) as (e1 & He1 & ->).
  assert (e1 = e) as -> by congruence.
  exists c, e. repeat split.
Qed.

(** C9. [clock_set_freq] completes and leaves [clk_pdata] as it found it,
    so [clock_get_freq] and [clock_us_to_ticks] return afterwards what they
    returned before, for every clock and every argument. *)
Theorem set_freq_frame (clock hz : Z) (s : state) :
  clocks_ready s -> is_clock clock ->
  exists v s',
    set_freq clock hz s = Some (v, s') /\
    clk_pdata s' = clk_pdata s /\
    (forall d, fst <$> clock_get_freq d s' = fst <$> clock_get_freq d s) /\
    (forall d us,
       fst <$> clock_us_to_ticks d us s' = fst <$> clock_us_to_ticks d us s).
Proof.
  intros Hr Hc.
  destruct (set_freq_run clock hz s Hr Hc)
    as (clk & c & evs & Hp & Hl & Hrun & _).
  eexists. eexists. split; [exact Hrun|].
  split; [simpl; congruence|]. split.
  - intros d. unfold clock_get_freq, bind, clk_load, ret. simpl. rewrite Hp.
    destruct (index clk d); reflexivity.
  - intros d us. unfold clock_us_to_ticks, bind, clk_load, ret. simpl.
    rewrite Hp. destruct (index clk d); reflexivity.
Qed.

(** C8, as amended. For an identifier other than CLK_CPU whose slot of the
    [clk] array exists, [clock_set_freq] is a silent no-op: it completes,
    leaves [clk_pdata] unchanged, calls neither the register update nor the
    notifier, and returns the stored frequency of that slot. *)
Theorem set_freq_silent_off_cpu (clock hz : Z) (s : state)
    (clk : list clk_data.t) (c : clk_data.t) :
  clock <> CLK_CPU ->
  clk_pdata s = Some clk -> index clk clock = Some c ->
  silent_no_op (set_freq clock hz s) s /\
  fst <$> set_freq clock hz s = Some (clk_data.freq c).
Proof.
  intros Hne Hp Hl.
  rewrite (set_freq_other_run clock hz s clk c Hne Hp Hl).
  split; [|reflexivity].
  exists (clk_data.freq c), [spin_lock_irq clock; spin_unlock_irq clock].
  rewrite Hp. split; reflexivity.
Qed.

End Transition.

(** C8, as stated, fails twice after initialisation.  For CLK_CPU the run
    is not a silent no-op: it updates the register and notifies.  For the
    identifier 2, which is neither CLK_CPU nor CLK_SSP, the read of
    [clk_pdata->clk[2]] that opens the function is outside the array, so the
    run yields no frequency value. *)
Lemma set_freq_not_silent_everywhere :
  ~ silent_no_op (clock_set_freq 0 0 0 (fun x => x) CLK_CPU 0 booted) booted /\
  clock_set_freq 0 0 0 (fun x => x) 2 0 booted = None.
Proof.
  split; [|reflexivity].
  intros (v & evs & Hrun & Hquiet).
  destruct (set_freq_cpu_run 0 0 0 (fun x => x) 0 booted _ _ eq_refl eq_refl)
    as (e & He & Hrun').
  rewrite Hrun' in Hrun. injection Hrun as _ Htr.
  subst evs. discriminate Hquiet.
Qed.

(** ** Elapsed time *)

(** C6. For CLK_CPU and CLK_SSP, with the clock's slot present and its
    ticks per microsecond positive, [clock_time_elapsed] stores the tick
    value read from the clock's timer in the output cell and returns
    [(current - previous) / ticks_per_usec] when [current >= previous] and
    [(current + (2^64 - 1 - previous)) / ticks_per_usec] when
    [current < previous], the division truncating ([÷] is [Z.quot]). *)
Theorem clock_time_elapsed_known (tm : timers) (clock previous current : Z)
    (s : state) (c : clk_data.t) :
  is_clock clock ->
  clk_load clock s = Some (c, s) ->
  0 < clk_data.ticks_per_usec c ->
  is_u64 previous ->
  is_u64 (arch_timer_get_system tm) -> is_u64 (platform_timer_get tm) ->
  let now :=
    if clock =? CLK_CPU then arch_timer_get_system tm
    else platform_timer_get tm in
  clock_time_elapsed tm clock previous current s =
    (now,
     Some (if now >=? previous then
             (now - previous) ÷ clk_data.ticks_per_usec c
           else
             (now + (2 ^ 64 - 1 - previous)) ÷ clk_data.ticks_per_usec c)).
Proof.
  intros Hc Hl Ht Hprev Harch Hplat now.
  assert (is_u64 now) as Hnow.
  { subst now. destruct (clock =? CLK_CPU); assumption. }
  assert (clock_time_elapsed tm clock previous current s =
            (now,
             if now >=? previous then
               Some (to_u64 (now - previous) ÷ clk_data.ticks_per_usec c)
             else
               Some (to_u64 (now + to_u64 (ULONG_LONG_MAX - previous))
                       ÷ clk_data.ticks_per_usec c))) as ->.
  { subst now. unfold clock_time_elapsed. rewrite Hl.
    destruct (Z.eqb_spec (clk_data.ticks_per_usec c) 0) as [Hz|_]; [lia|].
    destruct Hc as [-> | ->]; reflexivity. }
  unfold is_u64, to_u64, ULONG_LONG_MAX in *. f_equal.
  destruct (Z.geb_spec now previous).
  - rewrite Z.mod_small by lia. reflexivity.
  - rewrite (Z.mod_small (2 ^ 64 - 1 - previous)) by lia.
    rewrite Z.mod_small by lia. reflexivity.
Qed.

(** C10. For an identifier other than CLK_CPU and CLK_SSP,
    [clock_time_elapsed] returns 0 and leaves the output cell as it was; for
    CLK_CPU and CLK_SSP the output cell receives the value read from the
    clock's timer, whether or not the returned value is then defined. *)
Theorem clock_time_elapsed_output (tm : timers) (clock previous current : Z)
    (s : state) :
  (clock <> CLK_CPU -> clock <> CLK_SSP ->
     clock_time_elapsed tm clock previous current s = (current, Some 0)) /\
  (clock = CLK_CPU ->
     fst (clock_time_elapsed tm clock previous current s) =
       arch_timer_get_system tm) /\
  (clock = CLK_SSP ->
     fst (clock_time_elapsed tm clock previous current s) =
       platform_timer_get tm).
Proof.
  unfold clock_time_elapsed. split; [|split].
  - intros Hcpu Hssp.
    destruct (Z.eqb_spec clock CLK_CPU); [contradiction|].
    destruct (Z.eqb_spec clock CLK_SSP); [contradiction|]. reflexivity.
  - intros ->. reflexivity.
  - intros ->. reflexivity.
Qed.

(** ** The theorems at concrete inputs *)

(** The transition for CLK_CPU at 100000000 Hz, after initialisation. *)
Lemma set_freq_cpu_notifies_around_write_witness :
  clk_pdata booted = Some [clk_data.mk 320000000 320; clk_data.mk 24000000 24] /\
  index [clk_data.mk 320000000 320; clk_data.mk 24000000 24] CLK_CPU =
    Some (clk_data.mk 320000000 320) /\
  exists e v s',
    index cpu_freq (get_freq cpu_freq 100000000) = Some e /\
    clock_set_freq 0 0 0 (fun x => x) CLK_CPU 100000000 booted = Some (v, s') /\
    let payload := clock_notify_data.mk 320000000 320 (freq_table.freq e) in
    trace s' = trace booted ++
      [ spin_lock_irq CLK_CPU;
        notifier_event NOTIFIER_ID_CPU_FREQ CLOCK_NOTIFY_PRE payload;
        io_reg_update_bits (0 + 0) 0 (freq_table.enc e);
        notifier_event NOTIFIER_ID_CPU_FREQ CLOCK_NOTIFY_POST payload;
        spin_unlock_irq CLK_CPU ].
Proof.
  split; [reflexivity|]. split; [reflexivity|].
  apply (set_freq_cpu_notifies_around_write 0 0 0 (fun x => x) 100000000
           booted [clk_data.mk 320000000 320; clk_data.mk 24000000 24]
           (clk_data.mk 320000000 320)); reflexivity.
Defined.

(** The wrapped counter of the spec: [previous = 2^64 - 10], a read of 5 and
    10 ticks per microsecond give (5 + 9) / 10 = 1. *)
Lemma clock_time_elapsed_known_witness :
  clock_time_elapsed (mk_timers 5 7) CLK_CPU (2 ^ 64 - 10) 0
    (mk_state (Some [clk_data.mk 320000000 10; clk_data.mk 24000000 24]) []) =
  (5, Some 1).
Proof.
  apply (clock_time_elapsed_known (mk_timers 5 7) CLK_CPU (2 ^ 64 - 10) 0
           (mk_state (Some [clk_data.mk 320000000 10; clk_data.mk 24000000 24]) [])
           (clk_data.mk 320000000 10)).
  - left. reflexivity.
  - reflexivity.
  - simpl. lia.
  - unfold is_u64. lia.
  - unfold is_u64. simpl. lia.
  - unfold is_u64. simpl. lia.
Defined.

Lemma set_freq_twice_witness :
  exists v s1 s2,
    clock_set_freq 0 0 0 (fun x => x) CLK_CPU 100000000 booted = Some (v, s1) /\
    clock_set_freq 0 0 0 (fun x => x) CLK_CPU 100000000 s1 = Some (v, s2) /\
    (CLK_CPU = CLK_CPU ->
       exists c e,
         trace s1 = trace booted ++ cpu_calls 0 0 0 (fun x => x) c e /\
         trace s2 = trace s1 ++ cpu_calls 0 0 0 (fun x => x) c e /\
         filter (fun ev => is_notification ev = true)
                (cpu_calls 0 0 0 (fun x => x) c e) =
           [ notifier_event NOTIFIER_ID_CPU_FREQ CLOCK_NOTIFY_PRE
               (clock_notify_data.mk (clk_data.freq c)
                  (clk_data.ticks_per_usec c) (freq_table.freq e));
             notifier_event NOTIFIER_ID_CPU_FREQ CLOCK_NOTIFY_POST
               (clock_notify_data.mk (clk_data.freq c)
                  (clk_data.ticks_per_usec c) (freq_table.freq e)) ]).
Proof.
  apply (set_freq_twice 0 0 0 (fun x => x) CLK_CPU 100000000 booted).
  - exists [clk_data.mk 320000000 320; clk_data.mk 24000000 24].
    split; reflexivity.
  - left. reflexivity.
Defined.

Lemma set_freq_frame_witness :
  exists v s',
    clock_set_freq 0 0 0 (fun x => x) CLK_CPU 32000000 booted = Some (v, s') /\
    clk_pdata s' = clk_pdata booted /\
    (forall d, fst <$> clock_get_freq d s' = fst <$> clock_get_freq d booted) /\
    (forall d us,
       fst <$> clock_us_to_ticks d us s' =
       fst <$> clock_us_to_ticks d us booted).
Proof.
  apply (set_freq_frame 0 0 0 (fun x => x) CLK_CPU 32000000 booted).
  - exists [clk_data.mk 320000000 320; clk_data.mk 24000000 24].
    split; reflexivity.
  - left. reflexivity.
Defined.

Lemma set_freq_silent_off_cpu_witness :
  silent_no_op (clock_set_freq 0 0 0 (fun x => x) CLK_SSP 48000000 booted)
    booted /\
  fst <$> clock_set_freq 0 0 0 (fun x => x) CLK_SSP 48000000 booted =
    Some 24000000.
Proof.
  apply (set_freq_silent_off_cpu 0 0 0 (fun x => x) CLK_SSP 48000000 booted
           [clk_data.mk 320000000 320; clk_data.mk 24000000 24]
           (clk_data.mk 24000000 24)).
  - discriminate.
  - reflexivity.
  - reflexivity.
Defined.

Lemma clock_time_elapsed_output_witness :
  clock_time_elapsed (mk_timers 5 7) 2 100 42 booted = (42, Some 0) /\
  fst (clock_time_elapsed (mk_timers 5 7) CLK_CPU 100 42 booted) = 5 /\
  fst (clock_time_elapsed (mk_timers 5 7) CLK_SSP 100 42 booted) = 7.
Proof.
  split; [|split].
  - apply (proj1 (clock_time_elapsed_output (mk_timers 5 7) 2 100 42 booted));
      discriminate.
  - apply (proj1 (proj2
      (clock_time_elapsed_output (mk_timers 5 7) CLK_CPU 100 42 booted))).
    reflexivity.
  - apply (proj2 (proj2
      (clock_time_elapsed_output (mk_timers 5 7) CLK_SSP 100 42 booted))).
    reflexivity.
Defined.

(** * Further properties of the code *)

(** ** The selector *)

(** X1. On any table, ordered or not, with an entry [>= hz]: the selector
    returns an index of the table, the entry there is [>= hz], and every
    entry at a lower index is below [hz]. *)
Theorem get_freq_first_hit (table : list freq_table.t) (hz : Z) :
  Exists (fun e => hz <= freq_table.freq e) table ->
  exists e,
    index table (get_freq table hz) = Some e /\
    hz <= freq_table.freq e /\
    forall k e', 0 <= k < get_freq table hz -> index table k = Some e' ->
                 freq_table.freq e' < hz.
Proof.
  intros Hex. unfold get_freq.
  destruct (get_freq_scan table 0 hz) as [j|] eqn:Hscan.
  - pose proof (get_freq_scan_bounds _ _ _ _ Hscan) as Hb.
    destruct (get_freq_scan_first _ _ _ _ Hscan) as (e & Hl & Hhz & Hbelow).
    replace (j - 0) with j in * by lia.
    exists e. unfold index. destruct (Z.ltb_spec j 0); [lia|].
    split; [exact Hl|]. split; [exact Hhz|].
    intros k e' Hk Hke. destruct (Z.ltb_spec k 0); [lia|].
    apply (Forall_lookup_1 _ _ (Z.to_nat k) e' Hbelow).
    rewrite lookup_take_lt by lia. exact Hke.
  - apply get_freq_scan_none in Hscan.
    apply Exists_exists in Hex. destruct Hex as (x & Hx & Hhz).
    pose proof (proj1 (List.Forall_forall _ _) Hscan x) as H.
    specialize (H ltac:(apply list_elem_of_In; exact Hx)). simpl in H. lia.
Qed.

(** X3. The index the selector returns lies in the table exactly when the
    table is not empty: on an empty table the result is [size - 1] wrapped
    to 32 bits, 4294967295. *)
Theorem get_freq_valid_iff_nonempty (table : list freq_table.t) (hz : Z) :
  ARRAY_SIZE table <= 2 ^ 32 ->
  ((exists e, index table (get_freq table hz) = Some e) <-> table <> []) /\
  (table = [] -> get_freq table hz = 4294967295).
Proof.
  intros Hsz. split; [split|].
  - intros [e He] ->. discriminate He.
  - intros Hne. apply get_freq_in_table; assumption.
  - intros ->. reflexivity.
Qed.

Lemma get_freq_scan_monotone (table : list freq_table.t) (i hz1 hz2 j2 : Z) :
  hz1 <= hz2 -> get_freq_scan table i hz2 = Some j2 ->
  exists j1, get_freq_scan table i hz1 = Some j1 /\ j1 <= j2.
Proof.
  intros Hle. revert i.
  induction table as [|e rest IH]; intros i H; simpl in *.
  - discriminate.
  - destruct (Z.leb_spec hz2 (freq_table.freq e)).
    + injection H as <-. destruct (Z.leb_spec hz1 (freq_table.freq e)); [|lia].
      exists i. split; [reflexivity | lia].
    + pose proof (get_freq_scan_bounds _ _ _ _ H) as Hb.
      destruct (Z.leb_spec hz1 (freq_table.freq e)).
      * exists i. split; [reflexivity | lia].
      * apply IH. exact H.
Qed.

(** X4. A larger request never selects a lower index, on any table. *)
Theorem get_freq_monotone (table : list freq_table.t) (hz1 hz2 : Z) :
  ARRAY_SIZE table <= 2 ^ 32 -> hz1 <= hz2 ->
  get_freq table hz1 <= get_freq table hz2.
Proof.
  intros Hsz Hle. unfold get_freq.
  destruct (get_freq_scan table 0 hz2) as [j2|] eqn:H2.
  - destruct (get_freq_scan_monotone _ _ _ _ _ Hle H2) as (j1 & -> & Hj).
    exact Hj.
  - destruct (get_freq_scan table 0 hz1) as [j1|] eqn:H1; [|lia].
    apply get_freq_scan_bounds in H1.
    unfold to_u32. rewrite Z.mod_small; lia.
Qed.

(** X5. On the CPU table every request up to 320000000 Hz selects an entry
    whose frequency is the least one of the table that is [>= hz]; the
    disorder at the end of the table does not affect such requests. *)
Theorem get_freq_cpu_in_range (hz : Z) :
  hz <= 320000000 ->
  exists e,
    index cpu_freq (get_freq cpu_freq hz) = Some e /\
    least_at_least cpu_freq hz (freq_table.freq e).
Proof.
  intros Hhz. unfold get_freq. simpl.
  repeat match goal with
         | |- context [?a <=? ?b] => destruct (Z.leb_spec a b)
         end; try lia;
    (eexists; split; [reflexivity|]; split; [|split];
     [ eexists; split; [|reflexivity]; simpl; auto 10
     | simpl; lia
     | repeat constructor; simpl; lia ]).
Qed.

(** ** Initialisation and sequences of calls *)

(** X7. From any state, whatever [clk_pdata] held before,
    [init_platform_clocks] completes, makes exactly the two [spinlock_init]
    calls and leaves both slots at their defaults: 320000000 Hz and 320
    ticks per microsecond for CLK_CPU, 24000000 Hz and 24 ticks per
    microsecond for CLK_SSP. *)
Theorem init_platform_clocks_resets (s : state) :
  exists s',
    init_platform_clocks s = Some (tt, s') /\
    clocks_ready s' /\
    clk_load CLK_CPU s' = Some (clk_data.mk 320000000 320, s') /\
    clk_load CLK_SSP s' = Some (clk_data.mk 24000000 24, s') /\
    trace s' = trace s ++ [spinlock_init 0; spinlock_init 1].
Proof.
  eexists. split; [apply init_platform_clocks_run|].
  split; [apply booted_ready|]. repeat split.
Qed.

Lemma well_locked_app (held : option Z) (a b : list event) :
  well_locked held a = true ->
  well_locked held (a ++ b) = well_locked None b.
Proof.
  revert held. induction a as [|ev a IH]; intros held H; simpl in *.
  - destruct held; [discriminate | reflexivity].
  - destruct ev; destruct held as [c|]; try discriminate;
      try (apply andb_true_iff in H; destruct H as [-> H]; simpl);
      apply IH; exact H.
Qed.

Section Sequences.

Variables (SHIM_BASE SHIM_CSR SHIM_CSR_DCS_MASK : Z).
Variable SHIM_CSR_DCS : Z -> Z.

Local Abbreviation set_freq :=
  (clock_set_freq SHIM_BASE SHIM_CSR SHIM_CSR_DCS_MASK SHIM_CSR_DCS).
Local Abbreviation cpu_calls :=
  (cpu_calls SHIM_BASE SHIM_CSR SHIM_CSR_DCS_MASK SHIM_CSR_DCS).
Local Abbreviation exec :=
  (run_call SHIM_BASE SHIM_CSR SHIM_CSR_DCS_MASK SHIM_CSR_DCS).
Local Abbreviation exec_all :=
  (run_calls SHIM_BASE SHIM_CSR SHIM_CSR_DCS_MASK SHIM_CSR_DCS).

(** A defined run of the transition has read its slot. *)
Lemma set_freq_defined (clock hz : Z) (s : state) (r : Z * state) :
  set_freq clock hz s = Some r ->
  exists clk c, clk_pdata s = Some clk /\ index clk clock = Some c.
Proof.
  unfold clock_set_freq, bind, clk_load. intros H.
  destruct (clk_pdata s) as [clk|] eqn:Hp; [|discriminate].
  destruct (index clk clock) as [c|] eqn:Hl; [|discriminate].
  exists clk, c. split; [reflexivity | exact Hl].
Qed.

(** What a defined run of the transition adds to the trace. *)
Lemma set_freq_effect (clock hz : Z) (s : state) (v : Z) (s' : state) :
  set_freq clock hz s = Some (v, s') ->
  clk_pdata s' = clk_pdata s /\
  exists evs, trace s' = trace s ++ evs /\ well_locked None evs = true.
Proof.
  intros H.
  destruct (set_freq_defined _ _ _ _ H) as (clk & c & Hp & Hl).
  destruct (Z.eq_dec clock CLK_CPU) as [->|Hne].
  - destruct (set_freq_cpu_run SHIM_BASE SHIM_CSR SHIM_CSR_DCS_MASK
                SHIM_CSR_DCS hz s clk c Hp Hl) as (e & _ & Hrun).
    rewrite Hrun in H. injection H as _ <-. simpl.
    split; [congruence|]. eexists. split; reflexivity.
  - rewrite (set_freq_other_run SHIM_BASE SHIM_CSR SHIM_CSR_DCS_MASK
               SHIM_CSR_DCS clock hz s clk c Hne Hp Hl) in H.
    injection H as _ <-. simpl. split; [congruence|].
    eexists. split; [reflexivity|]. simpl. rewrite Z.eqb_refl. reflexivity.
Qed.

Lemma run_call_steady (c : api_call) (s s' : state) :
  steady s -> exec c s = Some s' -> steady s'.
Proof.
  intros [Hclk Hlock] Hrun. destruct c; unfold run_call in Hrun.
  - rewrite init_platform_clocks_run in Hrun. injection Hrun as <-.
    split; [right; reflexivity|]. simpl.
    rewrite (well_locked_app _ _ _ Hlock). reflexivity.
  - injection Hrun as <-. split; assumption.
  - injection Hrun as <-. split; assumption.
  - destruct (set_freq clock hz s) as [[v s1]|] eqn:Hset; [|discriminate].
    simpl in Hrun. injection Hrun as <-.
    destruct (set_freq_effect _ _ _ _ _ Hset) as (Hp & evs & Htr & Hevs).
    split; [rewrite Hp; exact Hclk|].
    rewrite Htr, (well_locked_app _ _ _ Hlock). exact Hevs.
  - unfold clock_get_freq, bind, clk_load, ret in Hrun.
    destruct (clk_pdata s) as [clk|] eqn:Hp; [|discriminate].
    destruct (index clk clock); [|discriminate].
    injection Hrun as <-. split; [rewrite Hp|]; assumption.
  - unfold clock_us_to_ticks, bind, clk_load, ret in Hrun.
    destruct (clk_pdata s) as [clk|] eqn:Hp; [|discriminate].
    destruct (index clk clock); [|discriminate].
    injection Hrun as <-. split; [rewrite Hp|]; assumption.
Qed.

Lemma run_calls_steady (cs : list api_call) (s s' : state) :
  steady s -> exec_all cs s = Some s' -> steady s'.
Proof.
  revert s. induction cs as [|c rest IH]; intros s Hs Hrun; simpl in Hrun.
  - injection Hrun as <-. exact Hs.
  - destruct (exec c s) as [s1|] eqn:Hc; [|discriminate].
    apply (IH s1); [|exact Hrun]. exact (run_call_steady c s s1 Hs Hc).
Qed.

Lemma cold_steady : steady cold.
Proof. split; [left|]; reflexivity. Qed.

(** X8. After any sequence of calls since power-on, the stored clock state
    is either absent (no initialisation yet) or exactly the defaults, so a
    defined [clock_get_freq] returns 320000000 for CLK_CPU and 24000000 for
    CLK_SSP whatever frequencies were requested in between. *)
Theorem run_calls_keep_defaults (cs : list api_call) (s : state) :
  exec_all cs cold = Some s ->
  (clk_pdata s = None \/
   clk_pdata s = Some [clk_data.mk 320000000 320; clk_data.mk 24000000 24]) /\
  (forall clock v s', clock_get_freq clock s = Some (v, s') ->
     (clock = CLK_CPU /\ v = 320000000) \/ (clock = CLK_SSP /\ v = 24000000)).
Proof.
  intros Hrun.
  destruct (run_calls_steady cs cold s cold_steady Hrun) as [Hclk _].
  split; [exact Hclk|].
  intros clock v s'. unfold clock_get_freq, bind, clk_load, ret, index.
  destruct Hclk as [-> | ->]; [discriminate|]. simpl.
  destruct (Z.ltb_spec clock 0) as [|Hpos]; [discriminate|].
  destruct (Z.to_nat clock) as [|[|n]] eqn:Hn; simpl; intros H.
  - injection H as <- _. left. split; [unfold CLK_CPU; lia | reflexivity].
  - injection H as <- _. right. split; [unfold CLK_SSP; lia | reflexivity].
  - discriminate.
Qed.

(** X9. After any sequence of calls since power-on the trace respects the
    locking discipline: every lock taken is released by the same clock
    before the next one is taken, and every notification and register
    update happens while the lock of CLK_CPU is held. *)
Theorem run_calls_well_locked (cs : list api_call) (s : state) :
  exec_all cs cold = Some s -> well_locked None (trace s) = true.
Proof.
  intros Hrun. exact (proj2 (run_calls_steady cs cold s cold_steady Hrun)).
Qed.

(** X6. Whatever the request, the encoding [clock_set_freq(CLK_CPU, hz)]
    hands to the register update is one of 6, 2, 1, 4 and 5, never 0: the
    operating point at index 4 of [cpu_freq] cannot be selected.  The
    encoding 5 of the last entry is written exactly for requests above
    320000000 Hz. *)
Theorem set_freq_cpu_encodings (hz : Z) (s : state) (clk : list clk_data.t)
    (c : clk_data.t) :
  clk_pdata s = Some clk -> index clk CLK_CPU = Some c ->
  exists e v s',
    set_freq CLK_CPU hz s = Some (v, s') /\
    trace s' = trace s ++ cpu_calls c e /\
    In (freq_table.enc e) [6; 2; 1; 4; 5] /\
    (freq_table.enc e = 5 <-> 320000000 < hz).
Proof.
  intros Hp Hl.
  destruct (set_freq_cpu_run SHIM_BASE SHIM_CSR SHIM_CSR_DCS_MASK
              SHIM_CSR_DCS hz s clk c Hp Hl) as (e & He & Hrun).
  exists e. eexists. eexists. split; [exact Hrun|]. split; [reflexivity|].
  unfold get_freq in He. simpl in He.
  repeat match type of He with
         | context [?a <=? ?b] => destruct (Z.leb_spec a b)
         end; try lia;
    injection He as <-; simpl; (split; [auto 10 | split; intros; lia]).
Qed.

End Sequences.

(** ** Ticks and elapsed time *)

(** The result for CLK_CPU and CLK_SSP, wrap-around of the 64-bit
    arithmetic included. *)
Lemma time_elapsed_run (tm : timers) (clock previous current : Z)
    (s : state) (c : clk_data.t) :
  is_clock clock -> clk_load clock s = Some (c, s) ->
  clk_data.ticks_per_usec c <> 0 ->
  let now :=
    if clock =? CLK_CPU then arch_timer_get_system tm
    else platform_timer_get tm in
  clock_time_elapsed tm clock previous current s =
    (now,
     if now >=? previous then
       Some (to_u64 (now - previous) ÷ clk_data.ticks_per_usec c)
     else
       Some (to_u64 (now + to_u64 (ULONG_LONG_MAX - previous))
               ÷ clk_data.ticks_per_usec c)).
Proof.
  intros Hc Hl Ht now. subst now. unfold clock_time_elapsed. rewrite Hl.
  destruct (Z.eqb_spec (clk_data.ticks_per_usec c) 0) as [Hz|_]; [lia|].
  destruct Hc as [-> | ->]; reflexivity.
Qed.

(** X10. [clock_us_to_ticks] leaves the state alone and returns a 64-bit
    value; that value is the product [ticks_per_usec * us] exactly when the
    product fits in 64 bits, and the product reduced modulo 2^64
    otherwise. *)
Theorem clock_us_to_ticks_exact_iff (clock us : Z) (s : state)
    (c : clk_data.t) :
  clk_load clock s = Some (c, s) ->
  0 <= clk_data.ticks_per_usec c * us ->
  exists t,
    clock_us_to_ticks clock us s = Some (t, s) /\
    is_u64 t /\
    (t = clk_data.ticks_per_usec c * us <->
     clk_data.ticks_per_usec c * us < 2 ^ 64) /\
    (t - clk_data.ticks_per_usec c * us) mod 2 ^ 64 = 0.
Proof.
  intros Hl Hpos. exists (to_u64 (clk_data.ticks_per_usec c * us)).
  unfold clock_us_to_ticks, bind, ret. rewrite Hl.
  split; [reflexivity|]. unfold is_u64, to_u64.
  pose proof (Z.mod_pos_bound (clk_data.ticks_per_usec c * us) (2 ^ 64)
                ltac:(lia)) as Hb.
  split; [exact Hb|]. split.
  - split.
    + intros Heq. lia.
    + intros Hlt. apply Z.mod_small. lia.
  - rewrite Zminus_mod, Z.mod_mod by lia. rewrite Z.sub_diag. reflexivity.
Qed.

(** X11. Waiting [us] microseconds' worth of ticks and asking for the
    elapsed time gives [us] back: if the timer has advanced from [previous]
    by [clock_us_to_ticks(clock, us)] plus less than one microsecond of
    ticks, without passing 2^64, then [clock_time_elapsed] returns [us]. *)
Theorem elapsed_after_us_to_ticks (tm : timers)
    (clock previous current us rest ticks : Z) (s : state) (c : clk_data.t) :
  is_clock clock -> clk_load clock s = Some (c, s) ->
  0 < clk_data.ticks_per_usec c ->
  0 <= us -> 0 <= rest < clk_data.ticks_per_usec c -> 0 <= previous ->
  clock_us_to_ticks clock us s = Some (ticks, s) ->
  (if clock =? CLK_CPU then arch_timer_get_system tm
   else platform_timer_get tm) = previous + ticks + rest ->
  previous + clk_data.ticks_per_usec c * us + rest < 2 ^ 64 ->
  clock_time_elapsed tm clock previous current s =
    (previous + ticks + rest, Some us).
Proof.
  intros Hc Hl Ht Hus Hrest Hprev Hticks Hnow Hfit.
  assert (ticks = clk_data.ticks_per_usec c * us) as ->.
  { unfold clock_us_to_ticks, bind, ret in Hticks. rewrite Hl in Hticks.
    injection Hticks as <-. unfold to_u64. apply Z.mod_small. nia. }
  rewrite (time_elapsed_run tm clock previous current s c Hc Hl) by lia.
  cbv zeta. rewrite Hnow. f_equal.
  destruct (Z.geb_spec (previous + clk_data.ticks_per_usec c * us + rest)
              previous) as [_|Hlt]; [|nia].
  f_equal. unfold to_u64. rewrite Z.mod_small by nia.
  rewrite Z.quot_div_nonneg by nia.
  symmetry. apply (Z.div_unique _ _ us rest); lia.
Qed.

(** X12. When the timer has wrapped ([current < previous]) the value
    divided is one tick short of the distance from [previous] to [current]
    counted modulo 2^64: the code adds [ULONG_LONG_MAX - previous], not
    [2^64 - previous]. *)
Theorem clock_time_elapsed_wrapped (tm : timers)
    (clock previous current : Z) (s : state) (c : clk_data.t) :
  is_clock clock -> clk_load clock s = Some (c, s) ->
  0 < clk_data.ticks_per_usec c ->
  is_u64 previous ->
  is_u64 (arch_timer_get_system tm) -> is_u64 (platform_timer_get tm) ->
  let now :=
    if clock =? CLK_CPU then arch_timer_get_system tm
    else platform_timer_get tm in
  now < previous ->
  snd (clock_time_elapsed tm clock previous current s) =
    Some ((to_u64 (now - previous) - 1) ÷ clk_data.ticks_per_usec c).
Proof.
  intros Hc Hl Ht Hprev Harch Hplat now Hlt.
  assert (is_u64 now) as Hnow.
  { subst now. destruct (clock =? CLK_CPU); assumption. }
  rewrite (time_elapsed_run tm clock previous current s c Hc Hl) by lia.
  fold now. simpl snd.
  destruct (Z.geb_spec now previous); [lia|].
  unfold is_u64, to_u64, ULONG_LONG_MAX in *. do 2 f_equal.
  rewrite (Z.mod_small (2 ^ 64 - 1 - previous)) by lia.
  rewrite (Z.mod_small (now + _)) by lia.
  rewrite <- (Z_mod_plus_full (now - previous) 1 (2 ^ 64)).
  rewrite (Z.mod_small (now - previous + _)) by lia. lia.
Qed.

Section ElapsedAfterCalls.

Variables (SHIM_BASE SHIM_CSR SHIM_CSR_DCS_MASK : Z).
Variable SHIM_CSR_DCS : Z -> Z.

(** X13. Once initialised, and whatever calls followed, the elapsed time of
    CLK_CPU is always defined and computed with 320 ticks per microsecond,
    that of CLK_SSP with 24: the divisor does not follow the frequencies
    requested through [clock_set_freq]. *)
Theorem clock_time_elapsed_after_calls (cs : list api_call) (s : state)
    (tm : timers) (clock previous current : Z) :
  run_calls SHIM_BASE SHIM_CSR SHIM_CSR_DCS_MASK SHIM_CSR_DCS cs cold = Some s ->
  clk_pdata s <> None ->
  is_clock clock ->
  is_u64 previous ->
  is_u64 (arch_timer_get_system tm) -> is_u64 (platform_timer_get tm) ->
  let now :=
    if clock =? CLK_CPU then arch_timer_get_system tm
    else platform_timer_get tm in
  let ticks := if clock =? CLK_CPU then 320 else 24 in
  clock_time_elapsed tm clock previous current s =
    (now,
     Some (if now >=? previous then (now - previous) ÷ ticks
           else (now + (2 ^ 64 - 1 - previous)) ÷ ticks)).
Proof.
  intros Hrun Hinit Hc Hprev Harch Hplat now ticks.
  destruct (run_calls_steady _ _ _ _ cs cold s cold_steady Hrun) as [Hclk _].
  destruct Hclk as [Hnone|Hclk]; [contradiction|].
  assert (is_u64 now) as Hnow.
  { subst now. destruct (clock =? CLK_CPU); assumption. }
  assert (clk_load clock s = Some (clk_data.mk 320000000 ticks, s) \/
          clk_load clock s = Some (clk_data.mk 24000000 ticks, s)) as Hl.
  { unfold clk_load. rewrite Hclk. subst ticks.
    destruct Hc as [-> | ->]; [left | right]; reflexivity. }
  assert (0 < ticks) as Ht.
  { subst ticks. destruct (clock =? CLK_CPU); lia. }
  assert (exists c, clk_load clock s = Some (c, s) /\
                    clk_data.ticks_per_usec c = ticks) as (c & Hload & Hticks).
  { destruct Hl as [Hl|Hl]; eexists; (split; [exact Hl | reflexivity]). }
  rewrite (time_elapsed_run tm clock previous current s c Hc Hload) by lia.
  fold now. rewrite Hticks. f_equal.
  unfold is_u64, to_u64, ULONG_LONG_MAX in *.
  destruct (Z.geb_spec now previous).
  - rewrite Z.mod_small by lia. reflexivity.
  - rewrite (Z.mod_small (2 ^ 64 - 1 - previous)) by lia.
    rewrite Z.mod_small by lia. reflexivity.
Qed.

End ElapsedAfterCalls.

(** ** The further properties at concrete inputs *)

(** An unordered table: the first entry [>= 50] is at index 1. *)
Lemma get_freq_first_hit_witness :
  exists e,
    index [freq_table.mk 10 1 0 0; freq_table.mk 90 1 0 0; freq_table.mk 60 1 0 0]
      (get_freq [freq_table.mk 10 1 0 0; freq_table.mk 90 1 0 0;
                 freq_table.mk 60 1 0 0] 50) = Some e /\
    50 <= freq_table.freq e /\
    forall k e',
      0 <= k < get_freq [freq_table.mk 10 1 0 0; freq_table.mk 90 1 0 0;
                         freq_table.mk 60 1 0 0] 50 ->
      index [freq_table.mk 10 1 0 0; freq_table.mk 90 1 0 0;
             freq_table.mk 60 1 0 0] k = Some e' ->
      freq_table.freq e' < 50.
Proof.
  apply (get_freq_first_hit
           [freq_table.mk 10 1 0 0; freq_table.mk 90 1 0 0;
            freq_table.mk 60 1 0 0] 50).
  apply Exists_cons_tl. apply Exists_cons_hd. simpl. lia.
Defined.

(** The ascending part of the CPU table, at 100000000 Hz. *)
Lemma get_freq_ascending_witness :
  exists e,
    index (take 5 cpu_freq) (get_freq (take 5 cpu_freq) 100000000) = Some e /\
    (Exists (fun e' => 100000000 <= freq_table.freq e') (take 5 cpu_freq) ->
       least_at_least (take 5 cpu_freq) 100000000 (freq_table.freq e)) /\
    (Forall (fun e' => freq_table.freq e' < 100000000) (take 5 cpu_freq) ->
       get_freq (take 5 cpu_freq) 100000000 = ARRAY_SIZE (take 5 cpu_freq) - 1 /\
       table_max (take 5 cpu_freq) (freq_table.freq e)).
Proof.
  apply (get_freq_ascending (take 5 cpu_freq) 100000000).
  - discriminate.
  - vm_compute. discriminate.
  - reflexivity.
Defined.

Lemma get_freq_valid_iff_nonempty_witness :
  ((exists e, index cpu_freq (get_freq cpu_freq 1) = Some e) <-> cpu_freq <> []) /\
  (cpu_freq = [] -> get_freq cpu_freq 1 = 4294967295).
Proof.
  apply (get_freq_valid_iff_nonempty cpu_freq 1). vm_compute. discriminate.
Defined.

Lemma get_freq_monotone_witness :
  get_freq cpu_freq 50000000 <= get_freq cpu_freq 200000000.
Proof.
  apply (get_freq_monotone cpu_freq 50000000 200000000).
  - vm_compute. discriminate.
  - lia.
Defined.

Lemma get_freq_cpu_in_range_witness :
  exists e,
    index cpu_freq (get_freq cpu_freq 100000000) = Some e /\
    least_at_least cpu_freq 100000000 (freq_table.freq e).
Proof. apply (get_freq_cpu_in_range 100000000). lia. Defined.

Lemma set_freq_cpu_encodings_witness :
  exists e v s',
    clock_set_freq 0 0 0 (fun x => x) CLK_CPU 400000000 booted = Some (v, s') /\
    trace s' = trace booted ++
      cpu_calls 0 0 0 (fun x => x) (clk_data.mk 320000000 320) e /\
    In (freq_table.enc e) [6; 2; 1; 4; 5] /\
    (freq_table.enc e = 5 <-> 320000000 < 400000000).
Proof.
  apply (set_freq_cpu_encodings 0 0 0 (fun x => x) 400000000 booted
           [clk_data.mk 320000000 320; clk_data.mk 24000000 24]
           (clk_data.mk 320000000 320)); reflexivity.
Defined.

(** Initialisation, a request for 32000000 Hz on the CPU, one for the SSP. *)
Lemma run_calls_keep_defaults_witness :
  exists s,
    run_calls 0 0 0 (fun x => x)
      [call_init_platform_clocks; call_clock_set_freq CLK_CPU 32000000;
       call_clock_set_freq CLK_SSP 48000000] cold = Some s /\
    (clk_pdata s = None \/
     clk_pdata s = Some [clk_data.mk 320000000 320; clk_data.mk 24000000 24]) /\
    (forall clock v s', clock_get_freq clock s = Some (v, s') ->
       (clock = CLK_CPU /\ v = 320000000) \/ (clock = CLK_SSP /\ v = 24000000)).
Proof.
  eexists. split; [reflexivity|].
  apply (run_calls_keep_defaults 0 0 0 (fun x => x)
           [call_init_platform_clocks; call_clock_set_freq CLK_CPU 32000000;
            call_clock_set_freq CLK_SSP 48000000]).
  reflexivity.
Defined.

Lemma run_calls_well_locked_witness :
  exists s,
    run_calls 0 0 0 (fun x => x)
      [call_clock_enable CLK_CPU; call_init_platform_clocks;
       call_clock_set_freq CLK_CPU 32000000; call_clock_get_freq CLK_SSP;
       call_clock_set_freq CLK_SSP 48000000] cold = Some s /\
    well_locked None (trace s) = true.
Proof.
  eexists. split; [reflexivity|].
  apply (run_calls_well_locked 0 0 0 (fun x => x)
           [call_clock_enable CLK_CPU; call_init_platform_clocks;
            call_clock_set_freq CLK_CPU 32000000; call_clock_get_freq CLK_SSP;
            call_clock_set_freq CLK_SSP 48000000]).
  reflexivity.
Defined.

(** 320 ticks per microsecond and 2^60 microseconds: the product wraps. *)
Lemma clock_us_to_ticks_exact_iff_witness :
  exists t,
    clock_us_to_ticks CLK_CPU (2 ^ 60) booted = Some (t, booted) /\
    is_u64 t /\
    (t = 320 * 2 ^ 60 <-> 320 * 2 ^ 60 < 2 ^ 64) /\
    (t - 320 * 2 ^ 60) mod 2 ^ 64 = 0.
Proof.
  apply (clock_us_to_ticks_exact_iff CLK_CPU (2 ^ 60) booted
           (clk_data.mk 320000000 320)).
  - reflexivity.
  - simpl. lia.
Defined.

(** 5 microseconds on the SSP clock, 24 ticks each, plus 23 ticks. *)
Lemma elapsed_after_us_to_ticks_witness :
  clock_time_elapsed (mk_timers 0 1143) CLK_SSP 1000 0 booted =
    (1000 + 120 + 23, Some 5).
Proof.
  apply (elapsed_after_us_to_ticks (mk_timers 0 1143) CLK_SSP 1000 0 5 23 120
           booted (clk_data.mk 24000000 24)).
  - right. reflexivity.
  - reflexivity.
  - simpl. lia.
  - lia.
  - simpl. lia.
  - lia.
  - reflexivity.
  - reflexivity.
  - simpl. lia.
Defined.

(** One tick across the wrap, at one tick per microsecond: the result is 0. *)
Lemma clock_time_elapsed_wrapped_witness :
  snd (clock_time_elapsed (mk_timers 0 0) CLK_CPU (2 ^ 64 - 1) 0
         (mk_state (Some [clk_data.mk 1000000 1; clk_data.mk 24000000 24]) [])) =
    Some ((to_u64 (0 - (2 ^ 64 - 1)) - 1) ÷ 1).
Proof.
  apply (clock_time_elapsed_wrapped (mk_timers 0 0) CLK_CPU (2 ^ 64 - 1) 0
           (mk_state (Some [clk_data.mk 1000000 1; clk_data.mk 24000000 24]) [])
           (clk_data.mk 1000000 1)).
  - left. reflexivity.
  - reflexivity.
  - simpl. lia.
  - unfold is_u64. lia.
  - unfold is_u64. simpl. lia.
  - unfold is_u64. simpl. lia.
  - simpl. lia.
Defined.

(** After a request for 32000000 Hz, 640 ticks still count as 2 us. *)
Lemma clock_time_elapsed_after_calls_witness :
  clock_time_elapsed (mk_timers 640 0) CLK_CPU 0 0
    (mk_state (clk_pdata booted)
       (trace booted ++
        cpu_calls 0 0 0 (fun x => x) (clk_data.mk 320000000 320)
          (freq_table.mk 32000000 80 32000000 6))) =
  (640, Some 2).
Proof.
  apply (clock_time_elapsed_after_calls 0 0 0 (fun x => x)
           [call_init_platform_clocks; call_clock_set_freq CLK_CPU 32000000]
           _ (mk_timers 640 0) CLK_CPU 0 0).
  - reflexivity.
  - discriminate.
  - left. reflexivity.
  - unfold is_u64. lia.
  - unfold is_u64. simpl. lia.
  - unfold is_u64. simpl. lia.
Defined.
